(** * flutter_network_watcher: the native registration shims (Linux, Windows)

    The repository's native code consists of two platform shims.  Each has a
    registration entry point with an empty body and a method-call handler
    that answers every call with the framework's "not implemented" reply.

    The shims only ever act on the outside world by calling the host
    framework (flutter_linux, the Windows C++ client wrapper).  They are
    embedded as programs over those calls ([Shim]), executed against a host
    ([exec]); [Host]/[ref_host] is a reference model of the framework with
    single-use reply sinks.

    Embedded: on Linux the instance struct, the cast macro,
    [flutter_network_watcher_plugin_handle_method_call],
    [flutter_network_watcher_plugin_init], [method_call_cb] and
    [flutter_network_watcher_plugin_register_with_registrar]; on Windows
    the class, its constructor and destructor, [RegisterWithRegistrar],
    [HandleMethodCall] and the C-API entry point.  The Linux [dispose] and
    [class_init] only chain into GObject's type machinery and are left
    out. *)

From stdpp Require Import base option gmap strings list fin_maps relations.

Set Default Proof Using "Type".
#[local] Set Warnings "-register-all".

(** ** Data exchanged with the host framework *)

(** Pointers and opaque host handles are addresses. *)
Abbreviation ptr := positive.

(** [flutter::EncodableValue] / [FlValue]: the variant-typed argument payload
    (the floating-point and typed-array alternatives carry no behaviour
    here and are left out). *)
Inductive EncodableValue : Type :=
| EVNull
| EVBool (b : bool)
| EVInt (z : Z)
| EVString (s : string)
| EVList (l : list EncodableValue)
| EVMap (kv : list (EncodableValue * EncodableValue)).

(** What a reply sink can carry back to the caller. *)
Inductive Response : Type :=
| RespSuccess (v : EncodableValue)
| RespError (code message : string)
| RespNotImplemented.

(** Linux: the [FlMethodCall] object handed to a method-call handler. *)
Record FlMethodCall : Type := {
  fl_name : string;
  fl_args : EncodableValue;
  fl_channel : string;
  fl_response_handle : ptr
}.

(** Windows: [flutter::MethodCall<EncodableValue>]; the reply sink travels
    separately as a [std::unique_ptr<flutter::MethodResult<...>>]. *)
Record MethodCall : Type := {
  method_name : string;
  arguments : EncodableValue
}.

(** Windows: the C++ wrapper the registrar manager builds around a
    [FlutterDesktopPluginRegistrarRef]. *)
Record PluginRegistrarWindows : Type := {
  registrar_ref : ptr
}.

(** A method-call handler as the host stores it: which of the two shim
    handlers, and the plugin instance it is bound to. *)
Inductive Callback : Type :=
| CbLinux (user_data : ptr)
| CbWindows (this : ptr).

(** Linux: the GObject types in play, the parent type [g_object_get_type()]
    and the plugin's own type that [G_DEFINE_TYPE] declares. *)
Inductive GType : Type :=
| G_TYPE_OBJECT
| FLUTTER_NETWORK_WATCHER_PLUGIN_TYPE.

(** ** Calls into the host framework

    The index is the type of the answer.  The first five are the calls the
    sources make: the two replies, the registrar lookup, and the two calls
    behind the Linux cast macro ([flutter_network_watcher_plugin_get_type],
    generated by [G_DEFINE_TYPE] and answered by GLib's type system, and the
    instance check of [G_TYPE_CHECK_INSTANCE_CAST]).  The last two are how a
    plugin wires itself into the framework; they belong to the host
    interface so that "installs no handler" and "retains nothing" are
    statements about what the shims do, not about what the model can
    express. *)
Inductive HostCall : Type → Type :=
| fl_method_call_respond_not_implemented
    (method_call : FlMethodCall) (error : option ptr) : HostCall bool
| NotImplemented (result : ptr) : HostCall unit
| GetRegistrar (registrar : ptr) : HostCall PluginRegistrarWindows
| flutter_network_watcher_plugin_get_type : HostCall GType
| g_type_check_instance_cast (instance : ptr) (iface_type : GType)
  : HostCall ptr
| set_method_call_handler (channel : string) (cb : Callback) : HostCall unit
| AddPlugin (registrar : ptr) (plugin : ptr) : HostCall unit.

(** The functions of the two shims, with their actual arguments; entering
    one is recorded in the execution log. *)
Inductive ShimFn : Type :=
| F_handle_method_call (self : ptr) (method_call : FlMethodCall)
| F_init (self : ptr)
| F_method_call_cb (channel : string) (method_call : FlMethodCall)
    (user_data : ptr)
| F_register_with_registrar (registrar : ptr)
| F_RegisterWithRegistrar (registrar : PluginRegistrarWindows)
| F_ctor (this : ptr)
| F_dtor (this : ptr)
| F_HandleMethodCall (this : ptr) (method_call : MethodCall) (result : ptr)
| F_CApiRegisterWithRegistrar (registrar : ptr).

(** ** Shim programs *)

Inductive Shim (R : Type) : Type :=
| Ret (r : R)
| Enter (f : ShimFn) (body : Shim R)
| Vis {A : Type} (c : HostCall A) (k : A → Shim R).

Arguments Ret {R} r.
Arguments Enter {R} f body.
Arguments Vis {R A} c k.

Fixpoint bind {R T : Type} (p : Shim R) (k : R → Shim T) : Shim T :=
  match p with
  | Ret r => k r
  | Enter f body => Enter f (bind body k)
  | Vis c h => Vis c (λ a, bind (h a) k)
  end.

#[global] Instance Shim_ret : MRet Shim := @Ret.
#[global] Instance Shim_bind : MBind Shim := λ R T k p, bind p k.

(** Perform one host call and hand back its answer. *)
Definition call {A : Type} (c : HostCall A) : Shim A := Vis c Ret.

(** What an execution leaves in the log. *)
Inductive Event : Type :=
| EvEnter (f : ShimFn)
| EvHost {A : Type} (c : HostCall A) (a : A).

(** ** Execution against a host

    A host answers a call and moves to a new state, or faults ([None]: the
    call dereferenced something that is not there).  Nothing in a shim
    catches a fault, so it ends the execution. *)
Section Exec.
Context {St : Type}.
Variable host : ∀ A : Type, HostCall A → St → option (A * St).

Fixpoint exec {R : Type} (p : Shim R) (s : St)
  : option (R * St * list Event) :=
  match p with
  | Ret r => Some (r, s, [])
  | Enter f body =>
      match exec body s with
      | Some (r, s', log) => Some (r, s', EvEnter f :: log)
      | None => None
      end
  | Vis c k =>
      match host _ c s with
      | Some (a, s') =>
          match exec (k a) s' with
          | Some (r, s'', log) => Some (r, s'', EvHost c a :: log)
          | None => None
          end
      | None => None
      end
  end.
End Exec.

(** The host calls of a log, in order, without their answers. *)
Inductive Request : Type :=
| Req {A : Type} (c : HostCall A).

Fixpoint host_calls (log : list Event) : list Request :=
  match log with
  | [] => []
  | EvEnter _ :: log' => host_calls log'
  | EvHost c _ :: log' => Req c :: host_calls log'
  end.

(** The shim functions entered in a log, in order. *)
Fixpoint entered (log : list Event) : list ShimFn :=
  match log with
  | [] => []
  | EvEnter f :: log' => f :: entered log'
  | EvHost _ _ :: log' => entered log'
  end.

(** ** linux/flutter_network_watcher_plugin.cc *)
Module Linux.

(** [struct _FlutterNetworkWatcherPlugin { GObject parent_instance; }]:
    the instance has no field of its own. *)
Record GObject : Type := {
  g_type_instance : ptr;
  ref_count : N
}.

Record _FlutterNetworkWatcherPlugin : Type := {
  parent_instance : GObject
}.

(** [FLUTTER_NETWORK_WATCHER_PLUGIN(obj)]:
    [G_TYPE_CHECK_INSTANCE_CAST((obj), flutter_network_watcher_plugin_get_type(),
    FlutterNetworkWatcherPlugin)], a checked cast.  It asks for the plugin's
    type and has the instance checked against it; the pointer it yields is
    the one the check hands back. *)
Definition FLUTTER_NETWORK_WATCHER_PLUGIN (obj : ptr) : Shim ptr :=
  iface_type ← call flutter_network_watcher_plugin_get_type;
  call (g_type_check_instance_cast obj iface_type).

Definition flutter_network_watcher_plugin_handle_method_call
    (self : ptr) (method_call : FlMethodCall) : Shim unit :=
  Enter (F_handle_method_call self method_call)
    (_ ← call (fl_method_call_respond_not_implemented method_call None);
     mret tt).

Definition flutter_network_watcher_plugin_init (self : ptr) : Shim unit :=
  Enter (F_init self) (mret tt).

Definition method_call_cb
    (channel : string) (method_call : FlMethodCall) (user_data : ptr)
  : Shim unit :=
  Enter (F_method_call_cb channel method_call user_data)
    (plugin ← FLUTTER_NETWORK_WATCHER_PLUGIN user_data;
     flutter_network_watcher_plugin_handle_method_call plugin method_call).

Definition flutter_network_watcher_plugin_register_with_registrar
    (registrar : ptr) : Shim unit :=
  Enter (F_register_with_registrar registrar) (mret tt).

End Linux.

(** ** windows/flutter_network_watcher_plugin.{h,cpp} and ..._c_api.cpp *)
Module Windows.

(** [class FlutterNetworkWatcherPlugin : public flutter::Plugin]: no data
    member. *)
Record FlutterNetworkWatcherPlugin : Type := {}.

Definition RegisterWithRegistrar (registrar : PluginRegistrarWindows)
  : Shim unit :=
  Enter (F_RegisterWithRegistrar registrar) (mret tt).

(** The constructor yields the object it built. *)
Definition FlutterNetworkWatcherPlugin_ctor (this : ptr)
  : Shim FlutterNetworkWatcherPlugin :=
  Enter (F_ctor this) (mret Build_FlutterNetworkWatcherPlugin).

Definition FlutterNetworkWatcherPlugin_dtor (this : ptr) : Shim unit :=
  Enter (F_dtor this) (mret tt).

(** [result] is the address held by the [std::unique_ptr]; it is released
    on return, after the reply. *)
Definition HandleMethodCall
    (this : ptr) (method_call : MethodCall) (result : ptr) : Shim unit :=
  Enter (F_HandleMethodCall this method_call result)
    (call (NotImplemented result)).

Definition FlutterNetworkWatcherPluginCApiRegisterWithRegistrar
    (registrar : ptr) : Shim unit :=
  Enter (F_CApiRegisterWithRegistrar registrar)
    (r ← call (GetRegistrar registrar);
     RegisterWithRegistrar r).

End Windows.

(** ** Reference host

    The framework's side of the host calls, as far as the shims can tell.
    Reply sinks are single-use: a sink is open while it maps to the empty
    list and holds the one reply delivered to it afterwards.  A handle that
    maps to nothing is not a sink (dangling or null). *)
Record Host : Type := {
  sinks : gmap positive (list Response);
  handlers : gmap string Callback;
  plugins : list (ptr * ptr);
  registrars : gset positive
}.

Definition empty_host : Host :=
  {| sinks := ∅; handlers := ∅; plugins := []; registrars := ∅ |}.

Definition with_sinks (m : gmap positive (list Response)) (h : Host) : Host :=
  {| sinks := m; handlers := handlers h; plugins := plugins h;
     registrars := registrars h |}.

(** Deliver a reply to an open sink; [None] when the handle is no open
    sink. *)
Definition deliver (sink : ptr) (r : Response) (h : Host) : option Host :=
  match sinks h !! sink with
  | Some [] => Some (with_sinks (<[sink := [r]]> (sinks h)) h)
  | _ => None
  end.

(** - [fl_method_call_respond_not_implemented] reports failure through its
      [gboolean] (and through [error] when that is not null);
    - [result->NotImplemented()] dereferences [result]: a handle that is no
      sink faults, a second reply to a used sink is dropped;
    - [GetRegistrar] finds or creates the wrapper of the reference and keeps
      it in the manager;
    - [flutter_network_watcher_plugin_get_type] answers the plugin's type
      (GLib registers it the first time; the type registry is not among
      what [Host] tracks);
    - [g_type_check_instance_cast] hands back the instance it was given,
      whether or not the check passes (a failed check only logs a warning);
    - the wiring calls record the handler / the plugin. *)
Definition ref_host (A : Type) (c : HostCall A) : Host → option (A * Host) :=
  match c in HostCall A return Host → option (A * Host) with
  | fl_method_call_respond_not_implemented method_call _ => λ h,
      match deliver (fl_response_handle method_call) RespNotImplemented h with
      | Some h' => Some (true, h')
      | None => Some (false, h)
      end
  | NotImplemented result => λ h,
      match sinks h !! result with
      | None => None
      | Some _ =>
          match deliver result RespNotImplemented h with
          | Some h' => Some (tt, h')
          | None => Some (tt, h)
          end
      end
  | GetRegistrar registrar => λ h,
      Some ({| registrar_ref := registrar |},
            {| sinks := sinks h; handlers := handlers h; plugins := plugins h;
               registrars := {[registrar]} ∪ registrars h |})
  | flutter_network_watcher_plugin_get_type => λ h,
      Some (FLUTTER_NETWORK_WATCHER_PLUGIN_TYPE, h)
  | g_type_check_instance_cast instance _ => λ h, Some (instance, h)
  | set_method_call_handler channel cb => λ h,
      Some (tt,
            {| sinks := sinks h; handlers := <[channel := cb]> (handlers h);
               plugins := plugins h; registrars := registrars h |})
  | AddPlugin registrar plugin => λ h,
      Some (tt,
            {| sinks := sinks h; handlers := handlers h;
               plugins := (registrar, plugin) :: plugins h;
               registrars := registrars h |})
  end.

(** Everything a host holds apart from the reply sinks. *)
Definition component_state (h : Host)
  : gmap string Callback * list (ptr * ptr) * gset positive :=
  (handlers h, plugins h, registrars h).

(** A sink is valid for a call when it is open. *)
Definition valid_sink (sink : ptr) (h : Host) : Prop :=
  sinks h !! sink = Some [].

(** ** The incoming calls a handler can be given *)
Inductive IncomingCall : Type :=
| LinuxCall (self : ptr) (method_call : FlMethodCall)
| WindowsCall (this : ptr) (method_call : MethodCall) (result : ptr).

Definition call_sink (c : IncomingCall) : ptr :=
  match c with
  | LinuxCall _ method_call => fl_response_handle method_call
  | WindowsCall _ _ result => result
  end.

Definition handle_call (c : IncomingCall) : Shim unit :=
  match c with
  | LinuxCall self method_call =>
      Linux.flutter_network_watcher_plugin_handle_method_call self method_call
  | WindowsCall this method_call result =>
      Windows.HandleMethodCall this method_call result
  end.

(** The one host call a handler is expected to make for a call. *)
Definition reply_request (c : IncomingCall) : Request :=
  match c with
  | LinuxCall _ method_call =>
      Req (fl_method_call_respond_not_implemented method_call None)
  | WindowsCall _ _ result => Req (NotImplemented result)
  end.

(** ** Registration entry points *)
Inductive Registration : Type :=
| LinuxRegister (registrar : ptr)
| WindowsRegister (registrar : PluginRegistrarWindows).

Definition register (r : Registration) : Shim unit :=
  match r with
  | LinuxRegister registrar =>
      Linux.flutter_network_watcher_plugin_register_with_registrar registrar
  | WindowsRegister registrar => Windows.RegisterWithRegistrar registrar
  end.

(** [n] calls of [register] in succession. *)
Fixpoint register_times (n : nat) (r : Registration) : Shim unit :=
  match n with
  | O => mret tt
  | S n' => register r;; register_times n' r
  end.

(** What an execution shows to the outside: its result, the state it leaves
    the host in and the host calls it made.  Entering a function is
    book-keeping of the log, not an effect. *)
Definition observe {R St : Type} (o : option (R * St * list Event))
  : option (R * St * list Request) :=
  match o with
  | Some (r, s, log) => Some (r, s, host_calls log)
  | None => None
  end.

(** The host calls a run attempts, the faulting one included. *)
Section Attempted.
Context {St : Type}.
Variable host : ∀ A : Type, HostCall A → St → option (A * St).

Fixpoint attempted {R : Type} (p : Shim R) (s : St) : list Request :=
  match p with
  | Ret _ => []
  | Enter _ body => attempted body s
  | Vis c k =>
      Req c ::
        match host _ c s with
        | Some (a, s') => attempted (k a) s'
        | None => []
        end
  end.
End Attempted.

(** A host call that came back with an error indication. *)
Definition reports_error (e : Event) : bool :=
  match e with
  | EvEnter _ => false
  | EvHost c a =>
      match c in HostCall A return A → bool with
      | fl_method_call_respond_not_implemented _ _ => negb
      | _ => λ _, false
      end a
  end.

(** The registrars [RegisterWithRegistrar] was entered with. *)
Definition register_entries (fs : list ShimFn)
  : list PluginRegistrarWindows :=
  omap (λ f, match f with
             | F_RegisterWithRegistrar r => Some r
             | _ => None
             end) fs.

(** The handlers of the shims, as opposed to their other functions. *)
Definition is_handler (f : ShimFn) : bool :=
  match f with
  | F_handle_method_call _ _ | F_method_call_cb _ _ _
  | F_HandleMethodCall _ _ _ => true
  | _ => false
  end.

(** ** The host's dispatch loop

    The host registers the plugin at start-up and afterwards routes every
    incoming message to the handler installed on its channel.  Each message
    comes with a sink of its own, opened by the host.  A message on a
    channel without handler is answered by the host itself, with the empty
    reply that also encodes "not implemented". *)
Inductive HostInput : Type :=
| StartLinux (registrar : ptr)
| StartWindows (registrar : ptr)
| Message (channel name : string) (args : EncodableValue).

Definition invoke (cb : Callback) (channel name : string)
    (args : EncodableValue) (sink : ptr) : Shim unit :=
  match cb with
  | CbLinux user_data =>
      Linux.method_call_cb channel
        {| fl_name := name; fl_args := args; fl_channel := channel;
           fl_response_handle := sink |} user_data
  | CbWindows this =>
      Windows.HandleMethodCall this
        {| method_name := name; arguments := args |} sink
  end.

Record System : Type := {
  sys_host : Host;
  sys_log : list Event
}.

Definition boot : System := {| sys_host := empty_host; sys_log := [] |}.

Definition run_shim (p : Shim unit) (h : Host) (log : list Event)
  : option System :=
  match exec ref_host p h with
  | Some (_, h', log') => Some {| sys_host := h'; sys_log := log ++ log' |}
  | None => None
  end.

Definition host_step (sys : System) (i : HostInput) : option System :=
  let h := sys_host sys in
  match i with
  | StartLinux registrar =>
      run_shim
        (Linux.flutter_network_watcher_plugin_register_with_registrar registrar)
        h (sys_log sys)
  | StartWindows registrar =>
      run_shim
        (Windows.FlutterNetworkWatcherPluginCApiRegisterWithRegistrar registrar)
        h (sys_log sys)
  | Message channel name args =>
      let sink := fresh (dom (sinks h)) in
      let h1 := with_sinks (<[sink := []]> (sinks h)) h in
      match handlers h !! channel with
      | Some cb => run_shim (invoke cb channel name args sink) h1 (sys_log sys)
      | None =>
          match deliver sink RespNotImplemented h1 with
          | Some h2 => Some {| sys_host := h2; sys_log := sys_log sys |}
          | None => None
          end
      end
  end.

Inductive sys_step : System → System → Prop :=
| sys_step_input (i : HostInput) (s s' : System) :
    host_step s i = Some s' → sys_step s s'.

Fixpoint run_inputs (sys : System) (inputs : list HostInput)
  : option System :=
  match inputs with
  | [] => Some sys
  | i :: inputs' =>
      match host_step sys i with
      | Some sys' => run_inputs sys' inputs'
      | None => None
      end
  end.

(** A run of handler calls, each given an open sink, with the log the calls
    leave behind. *)
Inductive calls_run : Host → list IncomingCall → Host → list Event → Prop :=
| calls_run_nil (h : Host) : calls_run h [] h []
| calls_run_cons (h h' h'' : Host) (c : IncomingCall)
    (cs : list IncomingCall) (log logs : list Event) :
    valid_sink (call_sink c) h →
    exec ref_host (handle_call c) h = Some (tt, h', log) →
    calls_run h' cs h'' logs →
    calls_run h (c :: cs) h'' (log ++ logs).

(** The same call addressed to another plugin instance. *)
Definition on_instance (inst : ptr) (c : IncomingCall) : IncomingCall :=
  match c with
  | LinuxCall _ method_call => LinuxCall inst method_call
  | WindowsCall _ method_call result => WindowsCall inst method_call result
  end.

(** ** Sample inputs

    A host with one open sink, the calls of the scenarios, a run of two
    calls and a run of the dispatch loop. *)
Definition open_host (sink : ptr) : Host :=
  with_sinks {[ sink := [] ]} empty_host.

Definition get_status_call : IncomingCall :=
  WindowsCall 1 {| method_name := "getStatus"; arguments := EVNull |} 7.

Definition subscribe_call : IncomingCall :=
  LinuxCall 2
    {| fl_name := "subscribe";
       fl_args := EVMap [(EVString "interval", EVInt 5)];
       fl_channel := "flutter_network_watcher";
       fl_response_handle := 7 |}.

Definition empty_name_call : IncomingCall :=
  WindowsCall 3 {| method_name := EmptyString; arguments := EVNull |} 7.

Definition two_open_sinks : Host :=
  with_sinks {[ 7%positive := []; 9%positive := [] ]} empty_host.

Definition status_on_9 : IncomingCall :=
  WindowsCall 1 {| method_name := "getStatus"; arguments := EVNull |} 9.

Definition two_calls_log : list Event :=
  [EvEnter
     (F_handle_method_call 2
        {| fl_name := "subscribe";
           fl_args := EVMap [(EVString "interval", EVInt 5)];
           fl_channel := "flutter_network_watcher";
           fl_response_handle := 7 |});
   EvHost
     (fl_method_call_respond_not_implemented
        {| fl_name := "subscribe";
           fl_args := EVMap [(EVString "interval", EVInt 5)];
           fl_channel := "flutter_network_watcher";
           fl_response_handle := 7 |} None)
     true;
   EvEnter
     (F_HandleMethodCall 1
        {| method_name := "getStatus"; arguments := EVNull |} 9);
   EvHost (NotImplemented 9) tt].

Definition two_replies : Host :=
  with_sinks
    {[ 7%positive := [RespNotImplemented];
       9%positive := [RespNotImplemented] ]}
    empty_host.

Definition sample_inputs : list HostInput :=
  [StartLinux 1; StartWindows 5;
   Message "flutter_network_watcher" "getStatus" EVNull].

Definition sample_system : System :=
  {| sys_host :=
       {| sinks := {[ 1%positive := [RespNotImplemented] ]};
          handlers := ∅;
          plugins := [];
          registrars := {[ 5%positive ]} |};
     sys_log :=
       [EvEnter (F_register_with_registrar 1);
        EvEnter (F_CApiRegisterWithRegistrar 5);
        EvHost (GetRegistrar 5) {| registrar_ref := 5 |};
        EvEnter (F_RegisterWithRegistrar {| registrar_ref := 5 |})] |}.

(** ** Further notions for the composite runs *)

(** A sink that can still take a reply. *)
Definition is_open (sink : ptr) (h : Host) : bool :=
  match sinks h !! sink with
  | Some [] => true
  | _ => false
  end.

(** The host calls that wire a plugin into the framework. *)
Definition is_wiring (q : Request) : bool :=
  match q with
  | Req c =>
      match c with
      | set_method_call_handler _ _ | AddPlugin _ _ => true
      | _ => false
      end
  end.

(** Every embedded function of the two shims, with its arguments. *)
Inductive EntryPoint : Type :=
| EpLinuxHandle (self : ptr) (method_call : FlMethodCall)
| EpLinuxInit (self : ptr)
| EpLinuxCallback (channel : string) (method_call : FlMethodCall)
    (user_data : ptr)
| EpLinuxRegister (registrar : ptr)
| EpWindowsRegister (registrar : PluginRegistrarWindows)
| EpWindowsCtor (this : ptr)
| EpWindowsDtor (this : ptr)
| EpWindowsHandle (this : ptr) (method_call : MethodCall) (result : ptr)
| EpWindowsCApi (registrar : ptr).

Record Program : Type := {
  result_type : Type;
  program : Shim result_type
}.

Definition entry_program (e : EntryPoint) : Program :=
  match e with
  | EpLinuxHandle self method_call =>
      Build_Program unit
        (Linux.flutter_network_watcher_plugin_handle_method_call
           self method_call)
  | EpLinuxInit self =>
      Build_Program unit (Linux.flutter_network_watcher_plugin_init self)
  | EpLinuxCallback channel method_call user_data =>
      Build_Program unit (Linux.method_call_cb channel method_call user_data)
  | EpLinuxRegister registrar =>
      Build_Program unit
        (Linux.flutter_network_watcher_plugin_register_with_registrar
           registrar)
  | EpWindowsRegister registrar =>
      Build_Program unit (Windows.RegisterWithRegistrar registrar)
  | EpWindowsCtor this =>
      Build_Program Windows.FlutterNetworkWatcherPlugin
        (Windows.FlutterNetworkWatcherPlugin_ctor this)
  | EpWindowsDtor this =>
      Build_Program unit (Windows.FlutterNetworkWatcherPlugin_dtor this)
  | EpWindowsHandle this method_call result =>
      Build_Program unit (Windows.HandleMethodCall this method_call result)
  | EpWindowsCApi registrar =>
      Build_Program unit
        (Windows.FlutterNetworkWatcherPluginCApiRegisterWithRegistrar
           registrar)
  end.

Definition is_message (i : HostInput) : bool :=
  match i with
  | Message _ _ _ => true
  | _ => false
  end.

(** Further sample inputs: the method call of [subscribe_call], a host whose
    sink 7 already holds a reply, and a host with both shims' handlers
    installed. *)
Definition subscribe_method_call : FlMethodCall :=
  {| fl_name := "subscribe";
     fl_args := EVMap [(EVString "interval", EVInt 5)];
     fl_channel := "flutter_network_watcher";
     fl_response_handle := 7 |}.

Definition used_sink_host : Host :=
  with_sinks {[ 7%positive := [RespSuccess EVNull] ]} empty_host.

(** A system in which both shims' handlers have been installed, each on a
    channel of its own, with one earlier call still unanswered. *)
Definition wired_system : System :=
  {| sys_host :=
       {| sinks := {[ 1%positive := [] ]};
          handlers :=
            {[ "linux_channel" := CbLinux 11;
               "windows_channel" := CbWindows 12 ]};
          plugins := [];
          registrars := ∅ |};
     sys_log := [] |}.

Definition wired_inputs : list HostInput :=
  [Message "linux_channel" "getStatus" EVNull;
   Message "windows_channel" "subscribe"
     (EVMap [(EVString "interval", EVInt 5)]);
   StartWindows 5;
   Message "no_such_channel" EmptyString EVNull].

(** * Properties *)

(** Case analysis on the answer of the host call the goal is waiting for. *)
Ltac case_host :=
  match goal with
  | |- context [match ?host ?A ?c ?s with Some _ => _ | None => _ end] =>
      destruct (host A c s) as [[? ?]|]
  end.

(** ** Helper lemmas: what each shim function does, on any host *)
Section AnyHost.
Context {St : Type}.
Variable host : ∀ A : Type, HostCall A → St → option (A * St).

Lemma exec_linux_register (registrar : ptr) (s : St) :
  exec host
    (Linux.flutter_network_watcher_plugin_register_with_registrar registrar)
    s
  = Some (tt, s, [EvEnter (F_register_with_registrar registrar)]).
Proof. reflexivity. Qed.

Lemma exec_windows_register (registrar : PluginRegistrarWindows) (s : St) :
  exec host (Windows.RegisterWithRegistrar registrar) s
  = Some (tt, s, [EvEnter (F_RegisterWithRegistrar registrar)]).
Proof. reflexivity. Qed.

Lemma observe_register (r : Registration) (s : St) :
  observe (exec host (register r) s) = Some (tt, s, []).
Proof. by destruct r. Qed.

Lemma exec_bind {R T : Type} (p : Shim R) (k : R → Shim T) (s : St) :
  exec host (bind p k) s =
    match exec host p s with
    | Some (r, s', log) =>
        match exec host (k r) s' with
        | Some (t, s'', log') => Some (t, s'', log ++ log')
        | None => None
        end
    | None => None
    end.
Proof.
  revert s. induction p as [r|f body IH|A c k' IH]; intros s; simpl.
  - by destruct (exec host (k r) s) as [[[t s''] log']|].
  - rewrite IH. destruct (exec host body s) as [[[r s'] log]|]; [|done].
    by destruct (exec host (k r) s') as [[[t s''] log']|].
  - destruct (host A c s) as [[a s1]|]; [|done].
    rewrite IH. destruct (exec host (k' a) s1) as [[[r s'] log]|]; [|done].
    by destruct (exec host (k r) s') as [[[t s''] log']|].
Qed.

Lemma host_calls_app (l1 l2 : list Event) :
  host_calls (l1 ++ l2) = host_calls l1 ++ host_calls l2.
Proof.
  induction l1 as [|[f|A c a] l1 IH]; simpl; [done|done|by rewrite IH].
Qed.

Lemma observe_register_times (n : nat) (r : Registration) (s : St) :
  observe (exec host (register_times n r) s) = Some (tt, s, []).
Proof.
  induction n as [|n IH]; [done|].
  change (register_times (S n) r)
    with (bind (register r) (λ _, register_times n r)).
  rewrite exec_bind.
  pose proof (observe_register r s) as Hr.
  destruct (exec host (register r) s) as [[[u s'] log]|]; [|done].
  simpl in Hr. injection Hr as -> -> Hlog.
  destruct (exec host (register_times n r) s) as [[[u' s'] log']|]; [|done].
  simpl in IH. injection IH as -> -> Hlog'.
  simpl. by rewrite host_calls_app, Hlog, Hlog'.
Qed.

Lemma exec_linux_handle (self : ptr) (method_call : FlMethodCall) (s : St) :
  exec host
    (Linux.flutter_network_watcher_plugin_handle_method_call
       self method_call) s
  = match
      host _ (fl_method_call_respond_not_implemented method_call None) s
    with
    | Some (ok, s') =>
        Some (tt, s',
              [EvEnter (F_handle_method_call self method_call);
               EvHost
                 (fl_method_call_respond_not_implemented method_call None)
                 ok])
    | None => None
    end.
Proof. simpl. by case_host. Qed.

Lemma exec_windows_handle (this : ptr) (method_call : MethodCall)
    (result : ptr) (s : St) :
  exec host (Windows.HandleMethodCall this method_call result) s
  = match host _ (NotImplemented result) s with
    | Some (u, s') =>
        Some (u, s',
              [EvEnter (F_HandleMethodCall this method_call result);
               EvHost (NotImplemented result) u])
    | None => None
    end.
Proof.
  simpl. by case_host.
Qed.

Lemma attempted_handle_call (c : IncomingCall) (s : St) :
  attempted host (handle_call c) s = [reply_request c].
Proof.
  destruct c as [self mc|this mc result]; simpl.
  - by case_host.
  - by case_host.
Qed.

Lemma attempted_register (r : Registration) (s : St) :
  attempted host (register r) s = [].
Proof. by destruct r. Qed.

Lemma exec_attempted {R : Type} (p : Shim R) (s : St) r s' log :
  exec host p s = Some (r, s', log) →
  attempted host p s = host_calls log.
Proof.
  revert s log. induction p as [r0|f body IH|A c k IH]; intros s log; simpl.
  - intros Heq. by simplify_eq.
  - destruct (exec host body s) as [[[r1 s1] log1]|] eqn:E; [|done].
    intros Heq. simplify_eq. simpl. by eapply IH.
  - destruct (host A c s) as [[a s1]|]; [|done].
    destruct (exec host (k a) s1) as [[[r1 s2] log1]|] eqn:E; [|done].
    intros Heq. simplify_eq. simpl. f_equal. by eapply IH.
Qed.
End AnyHost.

(** ** Helper lemmas: the reference host *)

Lemma deliver_valid (sink : ptr) (r : Response) (h : Host) :
  valid_sink sink h →
  deliver sink r h = Some (with_sinks (<[sink := [r]]> (sinks h)) h).
Proof. unfold valid_sink, deliver. by intros ->. Qed.

Lemma exec_handle_call_valid (c : IncomingCall) (h : Host) :
  valid_sink (call_sink c) h →
  ∃ log,
    exec ref_host (handle_call c) h
    = Some (tt,
            with_sinks (<[call_sink c := [RespNotImplemented]]> (sinks h)) h,
            log)
    ∧ host_calls log = [reply_request c]
    ∧ forallb (λ e, negb (reports_error e)) log = true.
Proof.
  intros Hv.
  destruct c as [self mc|this mc result];
    unfold handle_call, call_sink, reply_request in *.
  - eexists. rewrite exec_linux_handle. unfold ref_host.
    rewrite (deliver_valid _ _ _ Hv). done.
  - eexists. rewrite exec_windows_handle. unfold ref_host.
    rewrite (deliver_valid _ _ _ Hv). rewrite Hv. done.
Qed.

Lemma with_sinks_component (m : gmap positive (list Response)) (h : Host) :
  component_state (with_sinks m h) = component_state h.
Proof. reflexivity. Qed.

Lemma sinks_with_sinks (m : gmap positive (list Response)) (h : Host) :
  sinks (with_sinks m h) = m.
Proof. reflexivity. Qed.

Example scenario_get_status :
  observe (exec ref_host (handle_call get_status_call) (open_host 7))
  = Some (tt, with_sinks {[ 7%positive := [RespNotImplemented] ]} empty_host,
          [Req (NotImplemented 7)]).
Proof. reflexivity. Qed.

Example scenario_subscribe :
  (λ '(_, h, _), sinks h !! 7%positive)
    <$> exec ref_host (handle_call subscribe_call) (open_host 7)
  = Some (Some [RespNotImplemented]).
Proof. reflexivity. Qed.

Example scenario_empty_name :
  (λ '(_, h, _), sinks h !! 7%positive)
    <$> exec ref_host (handle_call empty_name_call) (open_host 7)
  = Some (Some [RespNotImplemented]).
Proof. reflexivity. Qed.

(** Outside the precondition: a used sink keeps its first reply (Linux
    reports [FALSE], which the shim drops), and a handle that is no sink
    faults on Windows. *)
Example linux_used_sink :
  exec ref_host (handle_call subscribe_call)
    (with_sinks {[ 7%positive := [RespSuccess EVNull] ]} empty_host)
  = Some (tt, with_sinks {[ 7%positive := [RespSuccess EVNull] ]} empty_host,
          [EvEnter
             (F_handle_method_call 2
                {| fl_name := "subscribe";
                   fl_args := EVMap [(EVString "interval", EVInt 5)];
                   fl_channel := "flutter_network_watcher";
                   fl_response_handle := 7 |});
           EvHost
             (fl_method_call_respond_not_implemented
                {| fl_name := "subscribe";
                   fl_args := EVMap [(EVString "interval", EVInt 5)];
                   fl_channel := "flutter_network_watcher";
                   fl_response_handle := 7 |} None)
             false]).
Proof. reflexivity. Qed.

Example windows_dangling_result :
  exec ref_host (handle_call get_status_call) empty_host = None.
Proof. reflexivity. Qed.

(** ** Main results *)

(** C1. For every call (any method name, any argument payload) on a valid
    reply sink, [handle_call] returns normally, having made exactly one host
    call, the "not implemented" reply on the call's own sink; the host is
    left as it was except that this sink now holds exactly the one reply
    [RespNotImplemented].  On any host whatsoever the reply is the only
    host call the handler attempts. *)
Theorem handle_call_one_not_implemented (c : IncomingCall) (h : Host) :
  valid_sink (call_sink c) h →
  (∃ log,
     exec ref_host (handle_call c) h
     = Some (tt,
             with_sinks (<[call_sink c := [RespNotImplemented]]> (sinks h)) h,
             log)
     ∧ host_calls log = [reply_request c])
  ∧ (∀ (St : Type) (host : ∀ A : Type, HostCall A → St → option (A * St))
       (s : St),
       attempted host (handle_call c) s = [reply_request c]).
Proof.
  intros Hv. split.
  - destruct (exec_handle_call_valid c h Hv) as (log & He & Hc & _).
    by exists log.
  - intros St host s. apply attempted_handle_call.
Qed.

Lemma handle_call_one_not_implemented_witness :
  valid_sink (call_sink subscribe_call) (open_host 7)
  ∧ (∃ log,
       exec ref_host (handle_call subscribe_call) (open_host 7)
       = Some (tt,
               with_sinks
                 (<[call_sink subscribe_call := [RespNotImplemented]]>
                    (sinks (open_host 7)))
                 (open_host 7),
               log)
       ∧ host_calls log = [reply_request subscribe_call]).
Proof.
  split; [reflexivity|].
  apply (handle_call_one_not_implemented subscribe_call (open_host 7)).
  reflexivity.
Defined.

(** C2. On every host and for every registrar, [register] (Linux
    [flutter_network_watcher_plugin_register_with_registrar], Windows
    [RegisterWithRegistrar]) returns normally, makes no host call at all (so
    it creates no channel, installs no handler, retains nothing, does no
    I/O) and leaves the host state exactly as it was. *)
Theorem register_is_noop (St : Type)
    (host : ∀ A : Type, HostCall A → St → option (A * St))
    (r : Registration) (s : St) :
  observe (exec host (register r) s) = Some (tt, s, [])
  ∧ attempted host (register r) s = [].
Proof. split; [apply observe_register|apply attempted_register]. Qed.

(** C3. [register] is idempotent: on every host, for every registrar and
    every [n], [n] calls in succession return normally and are observed
    exactly as one call and as no call: same host state, no host call. *)
Theorem register_idempotent (St : Type)
    (host : ∀ A : Type, HostCall A → St → option (A * St))
    (r : Registration) (n : nat) (s : St) :
  observe (exec host (register_times n r) s) = Some (tt, s, [])
  ∧ observe (exec host (register_times n r) s)
    = observe (exec host (register r) s)
  ∧ observe (exec host (register_times n r) s)
    = observe (exec host (register_times 0 r) s).
Proof.
  rewrite observe_register_times, observe_register. done.
Qed.

(** C4. The reply does not depend on the call.  Two runs of [handle_call],
    on any two calls (any method names, the empty one included, any
    arguments, either platform, any instances) each with a valid sink, both
    return normally without an error indication and leave the same fixed
    reply [RespNotImplemented] on their sinks; started from the same host
    on the same sink, the two runs end in the same host state. *)
Theorem handle_call_noninterference (c1 c2 : IncomingCall) (h1 h2 : Host) :
  valid_sink (call_sink c1) h1 →
  valid_sink (call_sink c2) h2 →
  ∃ h1' h2' log1 log2,
    exec ref_host (handle_call c1) h1 = Some (tt, h1', log1)
    ∧ exec ref_host (handle_call c2) h2 = Some (tt, h2', log2)
    ∧ forallb (λ e, negb (reports_error e)) (log1 ++ log2) = true
    ∧ sinks h1' !! call_sink c1 = Some [RespNotImplemented]
    ∧ sinks h2' !! call_sink c2 = sinks h1' !! call_sink c1
    ∧ (h1 = h2 → call_sink c1 = call_sink c2 → h1' = h2').
Proof.
  intros Hv1 Hv2.
  destruct (exec_handle_call_valid c1 h1 Hv1) as (log1 & He1 & _ & Hok1).
  destruct (exec_handle_call_valid c2 h2 Hv2) as (log2 & He2 & _ & Hok2).
  do 2 eexists. exists log1, log2.
  split; [exact He1|]. split; [exact He2|].
  split; [by rewrite forallb_app, Hok1, Hok2|].
  rewrite !sinks_with_sinks, !lookup_insert_eq.
  split; [done|]. split; [done|].
  by intros -> ->.
Qed.

Lemma handle_call_noninterference_witness :
  valid_sink (call_sink empty_name_call) (open_host 7)
  ∧ valid_sink (call_sink subscribe_call) (open_host 7)
  ∧ ∃ h1' h2' log1 log2,
      exec ref_host (handle_call empty_name_call) (open_host 7)
      = Some (tt, h1', log1)
      ∧ exec ref_host (handle_call subscribe_call) (open_host 7)
        = Some (tt, h2', log2)
      ∧ forallb (λ e, negb (reports_error e)) (log1 ++ log2) = true
      ∧ sinks h1' !! call_sink empty_name_call = Some [RespNotImplemented]
      ∧ sinks h2' !! call_sink subscribe_call
        = sinks h1' !! call_sink empty_name_call
      ∧ (open_host 7 = open_host 7 →
         call_sink empty_name_call = call_sink subscribe_call → h1' = h2').
Proof.
  split; [reflexivity|]. split; [reflexivity|].
  apply (handle_call_noninterference empty_name_call subscribe_call
           (open_host 7) (open_host 7)); reflexivity.
Defined.

(** C5. [handle_call] does not fail: on a valid reply sink the run does not
    fault, no host call comes back with an error indication, and the run
    ends with the "not implemented" reply on the sink. *)
Theorem handle_call_never_fails (c : IncomingCall) (h : Host) :
  valid_sink (call_sink c) h →
  exec ref_host (handle_call c) h ≠ None
  ∧ ∃ h' log,
      exec ref_host (handle_call c) h = Some (tt, h', log)
      ∧ forallb (λ e, negb (reports_error e)) log = true
      ∧ sinks h' !! call_sink c = Some [RespNotImplemented].
Proof.
  intros Hv.
  destruct (exec_handle_call_valid c h Hv) as (log & He & _ & Hok).
  split; [by rewrite He|].
  eexists. exists log. split; [exact He|]. split; [exact Hok|].
  by rewrite sinks_with_sinks, lookup_insert_eq.
Qed.

Lemma handle_call_never_fails_witness :
  valid_sink (call_sink get_status_call) (open_host 7)
  ∧ exec ref_host (handle_call get_status_call) (open_host 7) ≠ None
  ∧ ∃ h' log,
      exec ref_host (handle_call get_status_call) (open_host 7)
      = Some (tt, h', log)
      ∧ forallb (λ e, negb (reports_error e)) log = true
      ∧ sinks h' !! call_sink get_status_call = Some [RespNotImplemented].
Proof.
  split; [reflexivity|].
  apply (handle_call_never_fails get_status_call (open_host 7)).
  reflexivity.
Defined.

(** *** Runs of calls *)

Lemma calls_run_sinks_open (h h' : Host) (cs : list IncomingCall)
    (logs : list Event) :
  calls_run h cs h' logs →
  ∀ c, c ∈ cs → valid_sink (call_sink c) h.
Proof.
  induction 1 as [h|h h' h'' c cs log logs Hv He Hrun IH]; intros c' Hin.
  - by apply elem_of_nil in Hin.
  - apply elem_of_cons in Hin as [->|Hin]; [done|].
    specialize (IH c' Hin).
    destruct (exec_handle_call_valid c h Hv) as (log' & He' & _).
    rewrite He' in He. simplify_eq.
    unfold valid_sink in *. rewrite sinks_with_sinks in IH.
    destruct (decide (call_sink c = call_sink c')) as [Heq|Hne].
    + rewrite Heq, lookup_insert_eq in IH. done.
    + by rewrite lookup_insert_ne in IH.
Qed.

(** C7. The component has a single state.  Along every run of handler
    calls, each on a valid sink, nothing the host holds apart from the
    sinks ever changes (handlers, plugins and registrars stay what they
    were: no transition, nothing created, changed or destroyed); every call
    of the run has a sink of its own, written once with the fixed reply
    [RespNotImplemented]; all other sinks are untouched; and the host calls
    of the run are exactly the replies, one per call, in order. *)
Theorem calls_run_single_state (h0 h : Host) (cs : list IncomingCall)
    (logs : list Event) :
  calls_run h0 cs h logs →
  component_state h = component_state h0
  ∧ (∀ s : ptr,
       sinks h !! s =
         if decide (s ∈ call_sink <$> cs)
         then Some [RespNotImplemented] else sinks h0 !! s)
  ∧ host_calls logs = reply_request <$> cs
  ∧ NoDup (call_sink <$> cs).
Proof.
  induction 1 as [h|h h' h'' c cs log logs Hv He Hrun IH].
  - split; [done|]. split; [|split; [done|constructor]].
    intros s. rewrite decide_False; [done|]. apply not_elem_of_nil.
  - pose proof (calls_run_sinks_open _ _ _ _ Hrun) as Hopen.
    destruct (exec_handle_call_valid c h Hv) as (log' & He' & Hc & _).
    rewrite He' in He. injection He as <- <-.
    destruct IH as (Hcomp & Hsinks & Hcalls & Hnd).
    assert (call_sink c ∉ call_sink <$> cs) as Hfresh.
    { intros (c' & Heq & Hin)%list_elem_of_fmap.
      specialize (Hopen c' Hin). unfold valid_sink in Hopen.
      rewrite sinks_with_sinks, <- Heq, lookup_insert_eq in Hopen. done. }
    split; [by rewrite Hcomp|].
    split; [|split].
    + intros s. rewrite Hsinks, sinks_with_sinks. rewrite fmap_cons.
      destruct (decide (s = call_sink c)) as [->|Hne].
      * rewrite (decide_False (P := call_sink c ∈ call_sink <$> cs))
          by done.
        rewrite decide_True by apply list_elem_of_here.
        by rewrite lookup_insert_eq.
      * rewrite lookup_insert_ne by done.
        destruct (decide (s ∈ call_sink <$> cs)) as [Hin|Hnin].
        -- rewrite decide_True; [done|]. by apply list_elem_of_further.
        -- rewrite decide_False; [done|].
           intros [?|?]%elem_of_cons; done.
    + rewrite host_calls_app, Hc, Hcalls. done.
    + rewrite fmap_cons. by constructor.
Qed.


Lemma calls_run_single_state_witness :
  calls_run two_open_sinks [subscribe_call; status_on_9] two_replies
    two_calls_log
  ∧ component_state two_replies = component_state two_open_sinks
  ∧ (∀ s : ptr,
       sinks two_replies !! s =
         if decide (s ∈ call_sink <$> [subscribe_call; status_on_9])
         then Some [RespNotImplemented] else sinks two_open_sinks !! s)
  ∧ host_calls two_calls_log
    = reply_request <$> [subscribe_call; status_on_9]
  ∧ NoDup (call_sink <$> [subscribe_call; status_on_9]).
Proof.
  assert (calls_run two_open_sinks [subscribe_call; status_on_9] two_replies
            two_calls_log) as Hrun.
  { refine (calls_run_cons _ _ _ _ _ [_; _] [_; _] _ _ _);
      [reflexivity|reflexivity|].
    refine (calls_run_cons _ _ _ _ _ [_; _] [] _ _ _);
      [reflexivity|reflexivity|].
    apply calls_run_nil. }
  split; [exact Hrun|].
  exact (calls_run_single_state _ _ _ _ Hrun).
Defined.

(** *** The dispatch loop *)

Lemma entered_app (l1 l2 : list Event) :
  entered (l1 ++ l2) = entered l1 ++ entered l2.
Proof.
  induction l1 as [|[f|A c a] l1 IH]; simpl; [done|by rewrite IH|done].
Qed.

Lemma run_inputs_rtc (inputs : list HostInput) (s s' : System) :
  run_inputs s inputs = Some s' → rtc sys_step s s'.
Proof.
  revert s. induction inputs as [|i inputs IH]; intros s; simpl.
  - intros [= ->]. apply rtc_refl.
  - destruct (host_step s i) as [s1|] eqn:Hstep; [|done].
    intros Hrest. eapply rtc_l; [|by apply IH].
    by apply (sys_step_input i).
Qed.

(** Without a handler installed, a step installs none and enters no
    handler; and every input can be taken. *)
Lemma host_step_no_handler (s : System) (i : HostInput) :
  handlers (sys_host s) = ∅ →
  ∃ s' log,
    host_step s i = Some s'
    ∧ handlers (sys_host s') = ∅
    ∧ sys_log s' = sys_log s ++ log
    ∧ forallb (λ f, negb (is_handler f)) (entered log) = true.
Proof.
  intros Hempty. destruct s as [h log0]. simpl in Hempty.
  destruct i as [registrar|registrar|channel name args]; simpl.
  - do 2 eexists. split; [reflexivity|]. by repeat split.
  - do 2 eexists. split; [reflexivity|]. by repeat split.
  - rewrite Hempty, lookup_empty.
    unfold deliver. rewrite sinks_with_sinks, lookup_insert_eq.
    exists {| sys_host :=
                with_sinks
                  (<[fresh (dom (sinks h)) := [RespNotImplemented]]>
                     (<[fresh (dom (sinks h)) := []]> (sinks h)))
                  (with_sinks (<[fresh (dom (sinks h)) := []]> (sinks h)) h);
              sys_log := log0 |}, [].
    split; [reflexivity|]. split; [exact Hempty|].
    split; [by rewrite app_nil_r|done].
Qed.

(** C8. The handlers are dead code in the registered program.  In every
    state the host's dispatch loop can reach from start-up, whatever the
    registrations and incoming messages, no method-call handler is
    installed and none of the shims' handlers ([method_call_cb],
    [flutter_network_watcher_plugin_handle_method_call],
    [HandleMethodCall]) has ever been entered. *)
Theorem handlers_never_invoked (s : System) :
  rtc sys_step boot s →
  handlers (sys_host s) = ∅
  ∧ forallb (λ f, negb (is_handler f)) (entered (sys_log s)) = true.
Proof.
  revert s. apply rtc_ind_r; [done|].
  intros s1 s2 Hrtc Hstep IH.
  destruct Hstep as [i s1 s2 Hstep].
  destruct IH as [Hempty Hlog].
  destruct (host_step_no_handler s1 i Hempty)
    as (s2' & log & Hstep' & Hempty' & Hlog' & Hnone).
  rewrite Hstep' in Hstep. injection Hstep as <-.
  split; [exact Hempty'|].
  by rewrite Hlog', entered_app, forallb_app, Hlog, Hnone.
Qed.

Example sample_run : run_inputs boot sample_inputs = Some sample_system.
Proof. vm_compute. reflexivity. Qed.

Lemma handlers_never_invoked_witness :
  rtc sys_step boot sample_system
  ∧ handlers (sys_host sample_system) = ∅
  ∧ forallb (λ f, negb (is_handler f)) (entered (sys_log sample_system))
    = true.
Proof.
  assert (rtc sys_step boot sample_system) as Hreach
    by exact (run_inputs_rtc sample_inputs _ _ sample_run).
  split; [exact Hreach|].
  exact (handlers_never_invoked sample_system Hreach).
Defined.

(** *** Windows registration through the C API *)

Lemma exec_capi_register {St : Type}
    (host : ∀ A : Type, HostCall A → St → option (A * St))
    (registrar : ptr) (s : St) :
  exec host
    (Windows.FlutterNetworkWatcherPluginCApiRegisterWithRegistrar registrar) s
  = match host _ (GetRegistrar registrar) s with
    | Some (r, s') =>
        Some (tt, s',
              [EvEnter (F_CApiRegisterWithRegistrar registrar);
               EvHost (GetRegistrar registrar) r;
               EvEnter (F_RegisterWithRegistrar r)])
    | None => None
    end.
Proof.
  simpl. by case_host.
Qed.

(** C9, as stated, fails: the C-API entry point is not equal to
    [RegisterWithRegistrar].  Run on the empty reference host for the
    registrar reference 5, the C-API entry makes a host call (the lookup)
    and leaves the reference in the registrar manager, while
    [RegisterWithRegistrar] on the wrapper of 5 makes no call and leaves
    the host empty. *)
Lemma capi_register_differs :
  observe
    (exec ref_host
       (Windows.FlutterNetworkWatcherPluginCApiRegisterWithRegistrar 5)
       empty_host)
  ≠ observe
      (exec ref_host
         (Windows.RegisterWithRegistrar {| registrar_ref := 5 |}) empty_host).
Proof. simpl. intros Heq. discriminate Heq. Qed.

(** C9, amended.  The C-API entry point is [RegisterWithRegistrar] behind
    the registrar lookup.  On every host and from every state, its run is
    the lookup [GetRegistrar] of the reference followed by the run of
    [RegisterWithRegistrar] on the registrar the lookup answered:
    [RegisterWithRegistrar] is entered exactly once, with that registrar,
    the only host call is the lookup, and the host is left in the state the
    lookup left it in.  On the reference host that state is the one before
    with the reference added to the registrar manager: sinks, handlers and
    plugins are untouched. *)
Theorem capi_register_delegates (St : Type)
    (host : ∀ A : Type, HostCall A → St → option (A * St))
    (registrar : ptr) (s : St) :
  exec host
    (Windows.FlutterNetworkWatcherPluginCApiRegisterWithRegistrar registrar) s
  = match host _ (GetRegistrar registrar) s with
    | Some (r, s') =>
        match exec host (Windows.RegisterWithRegistrar r) s' with
        | Some (u, s'', log) =>
            Some (u, s'',
                  EvEnter (F_CApiRegisterWithRegistrar registrar)
                    :: EvHost (GetRegistrar registrar) r :: log)
        | None => None
        end
    | None => None
    end
  ∧ (λ '(_, s'', log),
       (s'', register_entries (entered log), host_calls log))
      <$> exec host
            (Windows.FlutterNetworkWatcherPluginCApiRegisterWithRegistrar
               registrar) s
    = (λ '(r, s'), (s', [r], [Req (GetRegistrar registrar)]))
        <$> host _ (GetRegistrar registrar) s
  ∧ (∀ h : Host,
       observe
         (exec ref_host
            (Windows.FlutterNetworkWatcherPluginCApiRegisterWithRegistrar
               registrar) h)
       = Some (tt,
               {| sinks := sinks h; handlers := handlers h;
                  plugins := plugins h;
                  registrars := {[registrar]} ∪ registrars h |},
               [Req (GetRegistrar registrar)])).
Proof.
  rewrite exec_capi_register. split; [|split].
  - by case_host.
  - by case_host.
  - intros h. by rewrite exec_capi_register.
Qed.

Example capi_register_sample :
  exec ref_host
    (Windows.FlutterNetworkWatcherPluginCApiRegisterWithRegistrar 5)
    empty_host
  = Some (tt,
          {| sinks := ∅; handlers := ∅; plugins := [];
             registrars := {[ 5%positive ]} |},
          [EvEnter (F_CApiRegisterWithRegistrar 5);
           EvHost (GetRegistrar 5) {| registrar_ref := 5 |};
           EvEnter (F_RegisterWithRegistrar {| registrar_ref := 5 |})]).
Proof. vm_compute. reflexivity. Qed.

(** *** The plugin object *)

(** C10. The plugin object is stateless.  The Windows class has no data
    member (any two objects are equal) and the Linux instance holds nothing
    beyond its [GObject] parent; constructing, initialising and destroying
    an instance make no host call and change nothing; a handler run does
    not depend on the instance it is addressed to; and two runs of the same
    call, on any two instances and from any two hosts in which the call's
    sink is valid, leave identical replies and change nothing but that
    sink. *)
Theorem plugin_object_stateless (c : IncomingCall) (inst1 inst2 : ptr)
    (h1 h2 : Host) :
  valid_sink (call_sink c) h1 →
  valid_sink (call_sink c) h2 →
  (∀ p q : Windows.FlutterNetworkWatcherPlugin, p = q)
  ∧ (∀ p : Linux._FlutterNetworkWatcherPlugin,
       p = {| Linux.parent_instance := Linux.parent_instance p |})
  ∧ (∀ (St : Type) (host : ∀ A : Type, HostCall A → St → option (A * St))
       (s : St),
       observe (exec host (Windows.FlutterNetworkWatcherPlugin_ctor inst1) s)
       = Some (Windows.Build_FlutterNetworkWatcherPlugin, s, [])
       ∧ observe
           (exec host (Windows.FlutterNetworkWatcherPlugin_dtor inst1) s)
         = Some (tt, s, [])
       ∧ observe
           (exec host (Linux.flutter_network_watcher_plugin_init inst1) s)
         = Some (tt, s, [])
       ∧ observe (exec host (handle_call (on_instance inst1 c)) s)
         = observe (exec host (handle_call (on_instance inst2 c)) s))
  ∧ ∃ h1' h2' log1 log2,
      exec ref_host (handle_call (on_instance inst1 c)) h1
      = Some (tt, h1', log1)
      ∧ exec ref_host (handle_call (on_instance inst2 c)) h2
        = Some (tt, h2', log2)
      ∧ sinks h1' !! call_sink c = sinks h2' !! call_sink c
      ∧ host_calls log1 = host_calls log2
      ∧ h1' = with_sinks (<[call_sink c := [RespNotImplemented]]> (sinks h1))
                h1
      ∧ h2' = with_sinks (<[call_sink c := [RespNotImplemented]]> (sinks h2))
                h2.
Proof.
  intros Hv1 Hv2.
  split; [by intros [] []|]. split; [by intros []|]. split.
  - intros St host s. repeat split.
    destruct c as [self mc|this mc result]; simpl.
    + by case_host.
    + by case_host.
  - assert (∀ inst, call_sink (on_instance inst c) = call_sink c) as Hsink
      by (intros inst; by destruct c).
    assert (∀ inst, reply_request (on_instance inst c) = reply_request c)
      as Hreq by (intros inst; by destruct c).
    rewrite <- (Hsink inst1) in Hv1. rewrite <- (Hsink inst2) in Hv2.
    destruct (exec_handle_call_valid _ h1 Hv1) as (log1 & He1 & Hc1 & _).
    destruct (exec_handle_call_valid _ h2 Hv2) as (log2 & He2 & Hc2 & _).
    rewrite Hsink in He1, He2.
    do 2 eexists. exists log1, log2.
    split; [exact He1|]. split; [exact He2|].
    split; [by rewrite !sinks_with_sinks, !lookup_insert_eq|].
    split; [by rewrite Hc1, Hc2, !Hreq|]. done.
Qed.

Lemma plugin_object_stateless_witness :
  valid_sink (call_sink get_status_call) (open_host 7)
  ∧ valid_sink (call_sink get_status_call) two_open_sinks
  ∧ ∃ h1' h2' log1 log2,
      exec ref_host (handle_call (on_instance 11 get_status_call))
        (open_host 7)
      = Some (tt, h1', log1)
      ∧ exec ref_host (handle_call (on_instance 12 get_status_call))
          two_open_sinks
        = Some (tt, h2', log2)
      ∧ sinks h1' !! call_sink get_status_call
        = sinks h2' !! call_sink get_status_call
      ∧ host_calls log1 = host_calls log2
      ∧ h1' = with_sinks
                (<[call_sink get_status_call := [RespNotImplemented]]>
                   (sinks (open_host 7)))
                (open_host 7)
      ∧ h2' = with_sinks
                (<[call_sink get_status_call := [RespNotImplemented]]>
                   (sinks two_open_sinks))
                two_open_sinks.
Proof.
  split; [reflexivity|]. split; [reflexivity|].
  apply (plugin_object_stateless get_status_call 11 12 (open_host 7)
           two_open_sinks); reflexivity.
Defined.

(** * Further properties of the shims *)

(** ** Helper lemmas *)

Lemma exec_seq {St R T : Type}
    (host : ∀ A : Type, HostCall A → St → option (A * St))
    (p : Shim R) (q : Shim T) (s : St) :
  exec host (p;; q) s =
    match exec host p s with
    | Some (_, s', log) =>
        match exec host q s' with
        | Some (t, s'', log') => Some (t, s'', log ++ log')
        | None => None
        end
    | None => None
    end.
Proof. apply (exec_bind host p (λ _, q)). Qed.

Lemma with_sinks_with_sinks (m1 m2 : gmap positive (list Response))
    (h : Host) :
  with_sinks m2 (with_sinks m1 h) = with_sinks m2 h.
Proof. reflexivity. Qed.

Lemma is_open_valid (sink : ptr) (h : Host) :
  is_open sink h = true ↔ valid_sink sink h.
Proof.
  unfold is_open, valid_sink.
  destruct (sinks h !! sink) as [[|r rs]|]; split; done.
Qed.

Lemma deliver_closed (sink : ptr) (r : Response) (h : Host) :
  is_open sink h = false → deliver sink r h = None.
Proof.
  unfold is_open, deliver. by destruct (sinks h !! sink) as [[|r' rs]|].
Qed.

Lemma exec_linux_handle_closed (self : ptr) (method_call : FlMethodCall)
    (h : Host) :
  is_open (fl_response_handle method_call) h = false →
  exec ref_host
    (Linux.flutter_network_watcher_plugin_handle_method_call self method_call)
    h
  = Some (tt, h,
          [EvEnter (F_handle_method_call self method_call);
           EvHost (fl_method_call_respond_not_implemented method_call None)
             false]).
Proof.
  intros Hclosed. rewrite exec_linux_handle. unfold ref_host.
  by rewrite (deliver_closed _ _ _ Hclosed).
Qed.

Lemma exec_linux_handle_open (self : ptr) (method_call : FlMethodCall)
    (h : Host) :
  valid_sink (fl_response_handle method_call) h →
  exec ref_host
    (Linux.flutter_network_watcher_plugin_handle_method_call self method_call)
    h
  = Some (tt,
          with_sinks
            (<[fl_response_handle method_call := [RespNotImplemented]]>
               (sinks h)) h,
          [EvEnter (F_handle_method_call self method_call);
           EvHost (fl_method_call_respond_not_implemented method_call None)
             true]).
Proof.
  intros Hv. rewrite exec_linux_handle. unfold ref_host.
  by rewrite (deliver_valid _ _ _ Hv).
Qed.

Lemma exec_windows_handle_open (this : ptr) (method_call : MethodCall)
    (result : ptr) (h : Host) :
  valid_sink result h →
  exec ref_host (Windows.HandleMethodCall this method_call result) h
  = Some (tt,
          with_sinks (<[result := [RespNotImplemented]]> (sinks h)) h,
          [EvEnter (F_HandleMethodCall this method_call result);
           EvHost (NotImplemented result) tt]).
Proof.
  intros Hv. rewrite exec_windows_handle. unfold ref_host.
  rewrite (deliver_valid _ _ _ Hv). by rewrite Hv.
Qed.

(** ** The Linux callback *)

Lemma exec_method_call_cb {St : Type}
    (host : ∀ A : Type, HostCall A → St → option (A * St))
    (channel : string) (method_call : FlMethodCall) (user_data : ptr)
    (s : St) :
  exec host (Linux.method_call_cb channel method_call user_data) s
  = match host _ flutter_network_watcher_plugin_get_type s with
    | Some (iface_type, s1) =>
        match host _ (g_type_check_instance_cast user_data iface_type) s1 with
        | Some (plugin, s2) =>
            match
              exec host
                (Linux.flutter_network_watcher_plugin_handle_method_call
                   plugin method_call) s2
            with
            | Some (u, s3, log) =>
                Some (u, s3,
                      EvEnter (F_method_call_cb channel method_call user_data)
                        :: EvHost flutter_network_watcher_plugin_get_type
                             iface_type
                        :: EvHost
                             (g_type_check_instance_cast user_data iface_type)
                             plugin
                        :: log)
            | None => None
            end
        | None => None
        end
    | None => None
    end.
Proof.
  simpl.
  destruct (host _ flutter_network_watcher_plugin_get_type s)
    as [[iface_type s1]|]; [|done].
  destruct (host _ (g_type_check_instance_cast user_data iface_type) s1)
    as [[plugin s2]|]; [|done].
  simpl.
  by destruct
    (host _ (fl_method_call_respond_not_implemented method_call None) s2)
    as [[ok s3]|].
Qed.

(** X1. [method_call_cb] is the handler behind a checked cast.  Whatever
    the channel and whatever [user_data] is, on a valid sink the callback
    returns normally; it asks for the plugin's type, has [user_data]
    checked against it, enters the handler exactly once, with the pointer
    the check handed back ([user_data] itself) as the plugin and the same
    method call, and makes the one reply call; these three are all its
    host calls, and the host is left as it was except for the reply
    [RespNotImplemented] on the call's sink. *)
Theorem method_call_cb_answers (channel : string) (method_call : FlMethodCall)
    (user_data : ptr) (h : Host) :
  valid_sink (fl_response_handle method_call) h →
  ∃ log,
    exec ref_host (Linux.method_call_cb channel method_call user_data) h
    = Some (tt,
            with_sinks
              (<[fl_response_handle method_call := [RespNotImplemented]]>
                 (sinks h)) h,
            log)
    ∧ entered log
      = [F_method_call_cb channel method_call user_data;
         F_handle_method_call user_data method_call]
    ∧ host_calls log
      = [Req flutter_network_watcher_plugin_get_type;
         Req (g_type_check_instance_cast user_data
                FLUTTER_NETWORK_WATCHER_PLUGIN_TYPE);
         Req (fl_method_call_respond_not_implemented method_call None)].
Proof.
  intros Hv. eexists. rewrite exec_method_call_cb.
  cbn [ref_host]. rewrite (exec_linux_handle_open _ _ _ Hv). done.
Qed.

Lemma method_call_cb_answers_witness :
  valid_sink (fl_response_handle subscribe_method_call) (open_host 7)
  ∧ ∃ log,
      exec ref_host
        (Linux.method_call_cb "another_channel" subscribe_method_call 99)
        (open_host 7)
      = Some (tt,
              with_sinks
                (<[fl_response_handle subscribe_method_call
                   := [RespNotImplemented]]> (sinks (open_host 7)))
                (open_host 7),
              log)
      ∧ entered log
        = [F_method_call_cb "another_channel" subscribe_method_call 99;
           F_handle_method_call 99 subscribe_method_call]
      ∧ host_calls log
        = [Req flutter_network_watcher_plugin_get_type;
           Req (g_type_check_instance_cast 99
                  FLUTTER_NETWORK_WATCHER_PLUGIN_TYPE);
           Req
             (fl_method_call_respond_not_implemented subscribe_method_call
                None)].
Proof.
  split; [reflexivity|].
  apply (method_call_cb_answers "another_channel" subscribe_method_call 99
           (open_host 7)).
  reflexivity.
Defined.

(** ** Failed replies on Linux *)

(** X2. The Linux handler swallows a failed reply.  When the call's sink
    cannot take a reply (already used, or no sink at all), the reply call
    answers [FALSE]; the handler passed no error slot and drops the answer,
    so it still returns normally and the host is exactly as it was. *)
Theorem linux_handler_swallows_failure (self : ptr)
    (method_call : FlMethodCall) (h : Host) :
  is_open (fl_response_handle method_call) h = false →
  ∃ log,
    exec ref_host
      (Linux.flutter_network_watcher_plugin_handle_method_call
         self method_call) h
    = Some (tt, h, log)
    ∧ existsb reports_error log = true
    ∧ host_calls log
      = [Req (fl_method_call_respond_not_implemented method_call None)].
Proof.
  intros Hclosed. eexists.
  rewrite (exec_linux_handle_closed _ _ _ Hclosed). done.
Qed.

Lemma linux_handler_swallows_failure_witness :
  is_open (fl_response_handle subscribe_method_call) used_sink_host = false
  ∧ ∃ log,
      exec ref_host
        (Linux.flutter_network_watcher_plugin_handle_method_call
           2 subscribe_method_call) used_sink_host
      = Some (tt, used_sink_host, log)
      ∧ existsb reports_error log = true
      ∧ host_calls log
        = [Req
             (fl_method_call_respond_not_implemented subscribe_method_call
                None)].
Proof.
  split; [reflexivity|].
  apply (linux_handler_swallows_failure 2 subscribe_method_call
           used_sink_host).
  reflexivity.
Defined.

(** X3. Handling the same [FlMethodCall] twice on Linux leaves one reply.
    On a valid sink the first run delivers [RespNotImplemented]; the second
    run's reply call fails and is dropped, so after both runs the host is
    exactly what it was after the first. *)
Theorem linux_second_reply_dropped (self : ptr) (method_call : FlMethodCall)
    (h : Host) :
  valid_sink (fl_response_handle method_call) h →
  exec ref_host
    (Linux.flutter_network_watcher_plugin_handle_method_call self method_call;;
     Linux.flutter_network_watcher_plugin_handle_method_call self method_call)
    h
  = Some (tt,
          with_sinks
            (<[fl_response_handle method_call := [RespNotImplemented]]>
               (sinks h)) h,
          [EvEnter (F_handle_method_call self method_call);
           EvHost (fl_method_call_respond_not_implemented method_call None)
             true;
           EvEnter (F_handle_method_call self method_call);
           EvHost (fl_method_call_respond_not_implemented method_call None)
             false]).
Proof.
  intros Hv. rewrite exec_seq, (exec_linux_handle_open _ _ _ Hv).
  rewrite exec_linux_handle_closed; [done|].
  unfold is_open. by rewrite sinks_with_sinks, lookup_insert_eq.
Qed.

Lemma linux_second_reply_dropped_witness :
  valid_sink (fl_response_handle subscribe_method_call) (open_host 7)
  ∧ exec ref_host
      (Linux.flutter_network_watcher_plugin_handle_method_call
         2 subscribe_method_call;;
       Linux.flutter_network_watcher_plugin_handle_method_call
         2 subscribe_method_call)
      (open_host 7)
    = Some (tt,
            with_sinks
              (<[fl_response_handle subscribe_method_call
                 := [RespNotImplemented]]> (sinks (open_host 7)))
              (open_host 7),
            [EvEnter (F_handle_method_call 2 subscribe_method_call);
             EvHost
               (fl_method_call_respond_not_implemented subscribe_method_call
                  None) true;
             EvEnter (F_handle_method_call 2 subscribe_method_call);
             EvHost
               (fl_method_call_respond_not_implemented subscribe_method_call
                  None) false]).
Proof.
  split; [reflexivity|].
  apply (linux_second_reply_dropped 2 subscribe_method_call (open_host 7)).
  reflexivity.
Defined.

(** ** Registration and call handling together *)

(** X4. Registration is transparent to call handling.  On every host and
    from every state, a handler run preceded or followed by a registration
    is observed exactly as the handler run alone: same result or fault,
    same host state, same host calls. *)
Theorem register_transparent_to_calls (St : Type)
    (host : ∀ A : Type, HostCall A → St → option (A * St))
    (r : Registration) (c : IncomingCall) (s : St) :
  observe (exec host (register r;; handle_call c) s)
  = observe (exec host (handle_call c) s)
  ∧ observe (exec host (handle_call c;; register r) s)
    = observe (exec host (handle_call c) s).
Proof.
  rewrite !exec_seq. split.
  - pose proof (observe_register host r s) as Hr.
    destruct (exec host (register r) s) as [[[u s'] log]|]; [|done].
    simpl in Hr. injection Hr as -> -> Hlog.
    destruct (exec host (handle_call c) s) as [[[u' s'] log']|]; [|done].
    simpl. by rewrite host_calls_app, Hlog.
  - destruct (exec host (handle_call c) s) as [[[u s'] log]|]; [|done].
    pose proof (observe_register host r s') as Hr.
    destruct (exec host (register r) s') as [[[u' s''] log']|]; [|done].
    simpl in Hr. injection Hr as -> -> Hlog. destruct u.
    simpl. by rewrite host_calls_app, Hlog, app_nil_r.
Qed.

(** X5. Replies to different calls are independent.  Two calls with
    different valid sinks can be handled in either order: both orders
    return normally and end in the same host state, in which each of the
    two sinks holds exactly [RespNotImplemented] and nothing else has
    changed. *)
Theorem replies_commute (c1 c2 : IncomingCall) (h : Host) :
  valid_sink (call_sink c1) h →
  valid_sink (call_sink c2) h →
  call_sink c1 ≠ call_sink c2 →
  ∃ log12 log21,
    exec ref_host (handle_call c1;; handle_call c2) h
    = Some (tt,
            with_sinks
              (<[call_sink c2 := [RespNotImplemented]]>
                 (<[call_sink c1 := [RespNotImplemented]]> (sinks h))) h,
            log12)
    ∧ exec ref_host (handle_call c2;; handle_call c1) h
      = Some (tt,
              with_sinks
                (<[call_sink c2 := [RespNotImplemented]]>
                   (<[call_sink c1 := [RespNotImplemented]]> (sinks h))) h,
              log21)
    ∧ host_calls log12 = [reply_request c1; reply_request c2]
    ∧ host_calls log21 = [reply_request c2; reply_request c1].
Proof.
  intros Hv1 Hv2 Hne.
  destruct (exec_handle_call_valid c1 h Hv1) as (l1 & He1 & Hc1 & _).
  destruct (exec_handle_call_valid c2 h Hv2) as (l2 & He2 & Hc2 & _).
  set (h1 := with_sinks (<[call_sink c1 := [RespNotImplemented]]> (sinks h))
               h) in *.
  set (h2 := with_sinks (<[call_sink c2 := [RespNotImplemented]]> (sinks h))
               h) in *.
  assert (valid_sink (call_sink c2) h1) as Hv2'.
  { unfold valid_sink, h1. by rewrite sinks_with_sinks, lookup_insert_ne. }
  assert (valid_sink (call_sink c1) h2) as Hv1'.
  { unfold valid_sink, h2. by rewrite sinks_with_sinks, lookup_insert_ne. }
  destruct (exec_handle_call_valid c2 h1 Hv2') as (l2' & He2' & Hc2' & _).
  destruct (exec_handle_call_valid c1 h2 Hv1') as (l1' & He1' & Hc1' & _).
  exists (l1 ++ l2'), (l2 ++ l1').
  rewrite !exec_seq, He1, He2, He2', He1'. unfold h1, h2.
  rewrite !with_sinks_with_sinks, !sinks_with_sinks.
  rewrite (insert_insert_ne (sinks h) (call_sink c1) (call_sink c2)) by done.
  rewrite !host_calls_app, Hc1, Hc2, Hc1', Hc2'. done.
Qed.

Lemma replies_commute_witness :
  valid_sink (call_sink subscribe_call) two_open_sinks
  ∧ valid_sink (call_sink status_on_9) two_open_sinks
  ∧ call_sink subscribe_call ≠ call_sink status_on_9
  ∧ ∃ log12 log21,
      exec ref_host (handle_call subscribe_call;; handle_call status_on_9)
        two_open_sinks
      = Some (tt,
              with_sinks
                (<[call_sink status_on_9 := [RespNotImplemented]]>
                   (<[call_sink subscribe_call := [RespNotImplemented]]>
                      (sinks two_open_sinks))) two_open_sinks,
              log12)
      ∧ exec ref_host (handle_call status_on_9;; handle_call subscribe_call)
          two_open_sinks
        = Some (tt,
                with_sinks
                  (<[call_sink status_on_9 := [RespNotImplemented]]>
                     (<[call_sink subscribe_call := [RespNotImplemented]]>
                        (sinks two_open_sinks))) two_open_sinks,
                log21)
      ∧ host_calls log12
        = [reply_request subscribe_call; reply_request status_on_9]
      ∧ host_calls log21
        = [reply_request status_on_9; reply_request subscribe_call].
Proof.
  split; [reflexivity|]. split; [reflexivity|].
  assert (call_sink subscribe_call ≠ call_sink status_on_9) as Hne
    by (simpl; discriminate).
  split; [exact Hne|].
  apply (replies_commute subscribe_call status_on_9 two_open_sinks);
    [reflexivity|reflexivity|exact Hne].
Defined.

(** ** What no shim function does *)

(** X6. No function of either shim wires anything into the framework: on
    every host and from every state, whichever function is run with
    whichever arguments, none of the host calls it attempts installs a
    method-call handler or adds a plugin to a registrar. *)
Theorem shims_never_wire (St : Type)
    (host : ∀ A : Type, HostCall A → St → option (A * St))
    (e : EntryPoint) (s : St) :
  forallb (λ q, negb (is_wiring q))
    (attempted host (program (entry_program e)) s) = true.
Proof. destruct e; simpl; repeat case_host; done. Qed.

(** ** The dispatch loop with handlers installed *)

Lemma fresh_sink_unused (h : Host) : sinks h !! fresh (dom (sinks h)) = None.
Proof. apply not_elem_of_dom, is_fresh. Qed.

(** A step of the loop: it is always taken, keeps handlers and plugins, and
    either leaves the sinks alone (a registration) or adds one sink, holding
    the not-implemented reply (a message). *)
Lemma host_step_total (sys : System) (i : HostInput) :
  ∃ sys',
    host_step sys i = Some sys'
    ∧ handlers (sys_host sys') = handlers (sys_host sys)
    ∧ plugins (sys_host sys') = plugins (sys_host sys)
    ∧ sinks (sys_host sys')
      = if is_message i
        then <[fresh (dom (sinks (sys_host sys))) := [RespNotImplemented]]>
               (sinks (sys_host sys))
        else sinks (sys_host sys).
Proof.
  destruct sys as [h log0].
  destruct i as [registrar|registrar|channel name args]; simpl.
  - eexists. split; [reflexivity|]. done.
  - eexists. split; [reflexivity|]. done.
  - set (k := fresh (dom (sinks h))).
    set (h1 := with_sinks (<[k := []]> (sinks h)) h).
    assert (valid_sink k h1) as Hv.
    { unfold valid_sink, h1. by rewrite sinks_with_sinks, lookup_insert_eq. }
    assert (<[k := [RespNotImplemented]]> (sinks h1)
            = <[k := [RespNotImplemented]]> (sinks h)) as Hins.
    { unfold h1. by rewrite sinks_with_sinks, insert_insert_eq. }
    destruct (handlers h !! channel) as [[user_data|this]|].
    + unfold run_shim, invoke. rewrite exec_method_call_cb.
      cbn [ref_host]. rewrite exec_linux_handle_open by exact Hv.
      eexists. split; [reflexivity|]. cbn [sys_host fl_response_handle].
      by rewrite sinks_with_sinks, Hins.
    + unfold run_shim, invoke.
      rewrite exec_windows_handle_open by exact Hv.
      eexists. split; [reflexivity|]. cbn [sys_host].
      by rewrite sinks_with_sinks, Hins.
    + rewrite (deliver_valid _ _ _ Hv).
      eexists. split; [reflexivity|]. cbn [sys_host].
      by rewrite sinks_with_sinks, Hins.
Qed.

(** X7. Whatever handlers are installed, the dispatch loop answers every
    message with "not implemented".  From every system state and for every
    sequence of registrations and messages, the loop runs to the end
    without fault; handlers and plugins are what they were; every sink that
    existed before is unchanged; each message has added one sink; and every
    added sink holds exactly [RespNotImplemented]. *)
Theorem dispatch_answers_every_message (sys : System)
    (inputs : list HostInput) :
  ∃ sys',
    run_inputs sys inputs = Some sys'
    ∧ handlers (sys_host sys') = handlers (sys_host sys)
    ∧ plugins (sys_host sys') = plugins (sys_host sys)
    ∧ sinks (sys_host sys) ⊆ sinks (sys_host sys')
    ∧ size (sinks (sys_host sys'))
      = size (sinks (sys_host sys)) + length (List.filter is_message inputs)
    ∧ map_Forall
        (λ k r, sinks (sys_host sys) !! k = Some r ∨ r = [RespNotImplemented])
        (sinks (sys_host sys')).
Proof.
  revert sys. induction inputs as [|i inputs IH]; intros sys.
  - exists sys. simpl. repeat split; [done|lia|].
    intros k r Hk. by left.
  - destruct (host_step_total sys i) as (sys1 & Hstep & Hh & Hp & Hs).
    destruct (IH sys1) as (sys' & Hrun & Hh' & Hp' & Hsub & Hsize & Hall).
    exists sys'. simpl. rewrite Hstep.
    split; [exact Hrun|]. split; [by rewrite Hh'|]. split; [by rewrite Hp'|].
    pose proof (fresh_sink_unused (sys_host sys)) as Hfresh.
    destruct (is_message i); simpl.
    + rewrite Hs in Hsub, Hsize, Hall. split; [|split].
      * etrans; [|exact Hsub]. by apply insert_subseteq.
      * rewrite Hsize, map_size_insert_None by done. lia.
      * intros k r Hk. destruct (Hall k r Hk) as [Hold|Hnew]; [|by right].
        destruct (decide (fresh (dom (sinks (sys_host sys))) = k))
          as [<-|Hne].
        -- rewrite lookup_insert_eq in Hold. right. congruence.
        -- rewrite lookup_insert_ne in Hold by done. by left.
    + rewrite Hs in Hsub, Hsize, Hall. done.
Qed.

Example wired_run :
  (λ sys', (sinks (sys_host sys'), entered (sys_log sys')))
    <$> run_inputs wired_system wired_inputs
  = Some ({[ 1%positive := [];
             2%positive := [RespNotImplemented];
             3%positive := [RespNotImplemented];
             4%positive := [RespNotImplemented] ]},
          [F_method_call_cb "linux_channel"
             {| fl_name := "getStatus"; fl_args := EVNull;
                fl_channel := "linux_channel"; fl_response_handle := 2 |} 11;
           F_handle_method_call 11
             {| fl_name := "getStatus"; fl_args := EVNull;
                fl_channel := "linux_channel"; fl_response_handle := 2 |};
           F_HandleMethodCall 12
             {| method_name := "subscribe";
                arguments := EVMap [(EVString "interval", EVInt 5)] |} 3;
           F_CApiRegisterWithRegistrar 5;
           F_RegisterWithRegistrar {| registrar_ref := 5 |}]).
Proof. vm_compute. reflexivity. Qed.

(** ** The two platforms side by side *)

(** X8. The Linux and the Windows handler agree wherever the reply handle is
    a sink, open or used.  Run from the same host on the same sink, with
    any instances and any method names and arguments, both return normally
    and end in the same host state: the reply [RespNotImplemented] is
    delivered when the sink was open, and the host is left as it was when
    the sink had been used. *)
Theorem platform_handlers_agree (self this : ptr)
    (fl_call : FlMethodCall) (win_call : MethodCall) (h : Host)
    (rs : list Response) :
  sinks h !! fl_response_handle fl_call = Some rs →
  ∃ h' log_linux log_windows,
    exec ref_host
      (Linux.flutter_network_watcher_plugin_handle_method_call self fl_call) h
    = Some (tt, h', log_linux)
    ∧ exec ref_host
        (Windows.HandleMethodCall this win_call (fl_response_handle fl_call))
        h
      = Some (tt, h', log_windows)
    ∧ h' = match rs with
           | [] =>
               with_sinks
                 (<[fl_response_handle fl_call := [RespNotImplemented]]>
                    (sinks h)) h
           | _ :: _ => h
           end.
Proof.
  intros Hs. destruct rs as [|r rs].
  - do 3 eexists.
    rewrite (exec_linux_handle_open _ _ _ Hs).
    rewrite (exec_windows_handle_open _ _ _ _ Hs). done.
  - do 3 eexists.
    rewrite exec_linux_handle_closed by (unfold is_open; by rewrite Hs).
    rewrite exec_windows_handle. unfold ref_host, deliver. rewrite Hs. done.
Qed.

Lemma platform_handlers_agree_witness :
  sinks used_sink_host !! fl_response_handle subscribe_method_call
  = Some [RespSuccess EVNull]
  ∧ ∃ h' log_linux log_windows,
      exec ref_host
        (Linux.flutter_network_watcher_plugin_handle_method_call
           2 subscribe_method_call) used_sink_host
      = Some (tt, h', log_linux)
      ∧ exec ref_host
          (Windows.HandleMethodCall 1
             {| method_name := "getStatus"; arguments := EVNull |}
             (fl_response_handle subscribe_method_call))
          used_sink_host
        = Some (tt, h', log_windows)
      ∧ h' = used_sink_host.
Proof.
  split; [reflexivity|].
  apply (platform_handlers_agree 2 1 subscribe_method_call
           {| method_name := "getStatus"; arguments := EVNull |}
           used_sink_host [RespSuccess EVNull]).
  reflexivity.
Defined.
